(** * gofsutil: format probe, format-and-mount, bind mount and mount-table
      snapshot (gofsutil_mount_linux.go)

    A shallow embedding of the four methods of [FS] defined in
    gofsutil_mount_linux.go.  The methods talk to the host through external
    processes (blkid, mkfs.<type>), through the mount primitives [fs.mount]
    and [fs.doMount], and through the mount-table file.  These collaborators
    are the fields of the class [Host]; every call made to one of them is
    recorded, in order, in a trace, so that statements such as "the format
    utility is never invoked" are statements about the trace. *)

From Stdlib Require Import String Ascii List ZArith NArith Bool Lia.
From Stdlib Require Import DecimalString.
Import ListNotations.

Open Scope string_scope.
Open Scope list_scope.

(** ** Go values *)

(** Go's [error] interface: one method, [Error() string].  A nil error is
    [None] in [option error]. *)
Record error : Type := NewError { Error : string }.

(** The double quote, as a string. *)
Definition dquote : string := String (ascii_of_nat 34) EmptyString.

(** A printable ASCII byte (0x20 to 0x7e) other than the double quote and
    the backslash: [strconv.Quote] copies such a byte as it is. *)
Definition plain_byte (c : ascii) : bool :=
  let n := N_of_ascii c in
  N.leb 32 n && N.leb n 126 && negb (N.eqb n 34) && negb (N.eqb n 92).

Definition plain (s : string) : bool :=
  forallb plain_byte (list_ascii_of_string s).

(** The Go library functions that the file uses but that are left abstract
    here: the Unicode-aware slow paths of [strings.TrimSpace] and the [%q]
    verb of package fmt ([strconv.Quote]), of which only its action on plain
    strings is fixed: it wraps them in double quotes. *)
Class GoStd : Type := {
  TrimFunc_IsSpace : string -> string;
  TrimRightFunc_IsSpace : string -> string;
  Quote : string -> string;
  Quote_plain : forall s, plain s = true -> Quote s = (dquote ++ s ++ dquote)%string
}.

(** [utf8.RuneSelf]: bytes below it are single-byte runes. *)
Definition RuneSelf : N := 128.

(** The table [asciiSpace] of package strings:
    '\t', '\n', '\v', '\f', '\r' and ' '. *)
Definition asciiSpace (c : ascii) : bool :=
  let n := N_of_ascii c in
  (N.leb 9 n && N.leb n 13) || N.eqb n 32.

(** First loop of [strings.TrimSpace]: skip ASCII space from the left.  The
    flag is [true] when a byte [>= RuneSelf] stopped the loop; the string is
    [s[start:]]. *)
Fixpoint TrimSpace_start (s : string) : bool * string :=
  match s with
  | EmptyString => (false, EmptyString)
  | String c s' =>
      if N.leb RuneSelf (N_of_ascii c) then (true, s)
      else if asciiSpace c then TrimSpace_start s'
      else (false, s)
  end.

(** Second loop of [strings.TrimSpace]: skip ASCII space from the right.  The
    flag is [true] when a byte [>= RuneSelf] stopped the loop; the string is
    [s[:stop]]. *)
Fixpoint TrimSpace_stop (s : string) : bool * string :=
  match s with
  | EmptyString => (false, EmptyString)
  | String c s' =>
      match TrimSpace_stop s' with
      | (_, EmptyString) =>
          if N.leb RuneSelf (N_of_ascii c) then (true, String c EmptyString)
          else if asciiSpace c then (false, EmptyString)
          else (false, String c EmptyString)
      | (b, t) => (b, String c t)
      end
  end.

(** [strings.TrimSpace]. *)
Definition TrimSpace `{GoStd} (s : string) : string :=
  match TrimSpace_start s with
  | (true, t) => TrimFunc_IsSpace t
  | (false, t) =>
      match TrimSpace_stop t with
      | (true, u) => TrimRightFunc_IsSpace u
      | (false, u) => u
      end
  end.

(** The [%d] verb applied to an int. *)
Definition itoa (z : Z) : string := NilZero.string_of_int (Z.to_int z).

(** [fmt.Errorf] once the format string has been expanded. *)
Definition fmt_Errorf (msg : string) : error := NewError msg.

(** ** The host *)

(** One call to an external collaborator. *)
Inductive call : Type :=
| Exec (name : string) (args : list string)
| FsMount (source target fsType : string) (opts : list string)
| DoMount (mntCmd source target fsType : string) (opts : list string)
| OsOpen (path : string)
| ReadFrom (quick : bool)
| FileClose.

(** The collaborators of the file.  [World] is the state of the host they
    act on. *)
Class Host : Type := {
  World : Type;
  context_Context : Type;
  File : Type;
  Info : Type;
  EntryScanFunc : Type;
  ProcMountsFields : Z;
  (* exec.Command(name, args...).CombinedOutput() *)
  exec_CombinedOutput : string -> list string -> World -> (string * option error) * World;
  (* exec.Command(name, args...).Run() *)
  exec_Run : string -> list string -> World -> option error * World;
  (* fs.mount(ctx, source, target, fsType, opts...) *)
  fs_mount : context_Context -> string -> string -> string -> list string -> World -> option error * World;
  (* fs.doMount(ctx, mntCmd, source, target, fsType, opts...) *)
  fs_doMount : context_Context -> string -> string -> string -> string -> list string -> World -> option error * World;
  (* os.Open(path) *)
  os_Open : string -> World -> (File + error) * World;
  (* ReadProcMountsFrom(ctx, file, quick, expectedFields, scanEntry) *)
  ReadProcMountsFrom : context_Context -> File -> bool -> Z -> EntryScanFunc -> World -> (list Info * Z * option error) * World;
  (* file.Close() *)
  file_Close : File -> World -> World
}.

(** The receiver. *)
Record FS `{Host} : Type := { ScanEntry : EntryScanFunc }.

(** ** Computations: host state and the trace of calls *)

Record state `{Host} : Type := { world : World; trace : list call }.

Definition M `{Host} (A : Type) : Type := state -> A * state.

Definition ret `{Host} {A : Type} (a : A) : M A := fun s => (a, s).

Definition bind `{Host} {A B : Type} (m : M A) (k : A -> M B) : M B :=
  fun s => let (a, s') := m s in k a s'.

Declare Scope go_scope.
Delimit Scope go_scope with go.
Notation "x <- m ;; k" := (bind m (fun x => k))
  (at level 61, m at next level, right associativity) : go_scope.
Notation "' p <- m ;; k" := (bind m (fun x => match x with p => k end))
  (at level 61, p pattern, m at next level, right associativity) : go_scope.
Open Scope go_scope.

(** A call to a collaborator: the host answers and the call is appended to
    the trace. *)
Definition invoke `{Host} {A : Type} (c : call) (f : World -> A * World) : M A :=
  fun s => let (a, w) := f (world s) in (a, {| world := w; trace := trace s ++ [c] |}).

(** logrus calls: diagnostics only. *)
Definition log `{Host} (msg : string) : M unit := ret tt.

(** ** The source file *)

Definition procMountsPath : string := "/proc/self/mountinfo".
Definition procMountsRetries : Z := 3.

Section Methods.
Context `{GoStd} `{Host}.

(** [getDiskFormat] uses 'blkid' to see if the given disk is unformatted. *)
Definition getDiskFormat (fs : FS) (ctx : context_Context) (disk : string)
  : M (string * option error) :=
  let args := ["-s"; "TYPE"; "-o"; "value"; disk] in
  _ <- log "checking if disk is formatted using blkid" ;;
  '(out, err) <- invoke (Exec "blkid" args) (exec_CombinedOutput "blkid" args) ;;
  _ <- log "blkid output" ;;
  match err with
  | Some _ =>
      _ <- log "no filesystem found on disk" ;;
      ret ("", None)
  | None =>
      let fsType := TrimSpace out in
      if negb (fsType =? "") then
        _ <- log "disk is already formatted" ;;
        ret (fsType, None)
      else ret ("", None)
  end.

(** Lines 75-101 of [formatAndMount]: the disk is unformatted, so it is
    formatted and then mounted.  [opts] already ends with "defaults". *)
Definition formatAndMount_unformatted (ctx : context_Context)
    (source target fsType : string) (opts : list string) : M (option error) :=
  let args := [source] in
  (* Use 'ext4' as the default *)
  let fsType := if (String.length fsType =? 0)%nat then "ext4" else fsType in
  let args :=
    if (fsType =? "ext4") || (fsType =? "ext3") then ["-F"; source] else args in
  _ <- log "disk appears unformatted, attempting format" ;;
  let mkfsCmd := ("mkfs." ++ fsType)%string in
  err <- invoke (Exec mkfsCmd args) (exec_Run mkfsCmd args) ;;
  match err with
  | Some e =>
      _ <- log "format of disk failed" ;;
      ret (Some e)
  | None =>
      (* the disk has been formatted successfully try to mount it. *)
      _ <- log "disk successfully formatted" ;;
      invoke (FsMount source target fsType opts)
             (fs_mount ctx source target fsType opts)
  end.

(** Lines 103-119 of [formatAndMount]: the disk is formatted as
    [existingFormat]; try to mount it and classify a failure. *)
Definition formatAndMount_formatted (ctx : context_Context)
    (source target fsType : string) (opts : list string)
    (existingFormat : string) : M (option error) :=
  _ <- log "attempting to mount disk" ;;
  mountErr <- invoke (FsMount source target fsType opts)
                     (fs_mount ctx source target fsType opts) ;;
  match mountErr with
  | None => ret None
  | Some mountErr =>
      (* Disk is already formatted and failed to mount *)
      if (String.length fsType =? 0)%nat || (fsType =? existingFormat) then
        (* This is mount error *)
        ret (Some mountErr)
      else
        (* Block device is formatted with unexpected filesystem *)
        ret (Some (fmt_Errorf
          ("failed to mount volume as " ++ Quote fsType
           ++ "; already contains " ++ existingFormat
           ++ ": error: " ++ Error mountErr)%string))
  end.

(** [formatAndMount] uses unix utils to format and mount the given disk. *)
Definition formatAndMount (fs : FS) (ctx : context_Context)
    (source target fsType : string) (opts : list string) : M (option error) :=
  let opts := opts ++ ["defaults"] in
  '(existingFormat, err) <- getDiskFormat fs ctx source ;;
  match err with
  | Some e => ret (Some e)
  | None =>
      if existingFormat =? "" then
        formatAndMount_unformatted ctx source target fsType opts
      else
        formatAndMount_formatted ctx source target fsType opts existingFormat
  end.

(** [bindMount] performs a bind mount. *)
Definition bindMount (fs : FS) (ctx : context_Context)
    (source target : string) (opts : list string) : M (option error) :=
  err <- invoke (DoMount "mount" source target "" ["bind"])
                (fs_doMount ctx "mount" source target "" ["bind"]) ;;
  match err with
  | Some e => ret (Some e)
  | None =>
      invoke (DoMount "mount" source target "" opts)
             (fs_doMount ctx "mount" source target "" opts)
  end.

(** [readProcMounts] reads procMountsInfo and produces a hash of the
    contents and a list of the mounts as Info objects.  The deferred
    [file.Close()] runs after [ReadProcMountsFrom] has returned. *)
Definition readProcMounts (fs : FS) (ctx : context_Context)
    (path : string) (info : bool) : M (list Info * Z * option error) :=
  r <- invoke (OsOpen path) (os_Open path) ;;
  match r with
  | inr e => ret ([], 0%Z, Some e)
  | inl file =>
      res <- invoke (ReadFrom (negb info))
               (ReadProcMountsFrom ctx file (negb info) ProcMountsFields (ScanEntry fs)) ;;
      _ <- invoke FileClose (fun w => (tt, file_Close file w)) ;;
      ret res
  end.

(** The [for] loop of [getMounts], with [n = procMountsRetries - i]
    iterations left and [hash1] the fingerprint of the previous read. *)
Fixpoint getMounts_loop (n : nat) (fs : FS) (ctx : context_Context) (hash1 : Z)
  : M (list Info * option error) :=
  match n with
  | O =>
      ret ([], Some (fmt_Errorf
        ("failed to get a consistent snapshot of " ++ procMountsPath
         ++ " after " ++ itoa procMountsRetries ++ " tries")%string))
  | S n' =>
      '(mps, hash2, err) <- readProcMounts fs ctx procMountsPath true ;;
      match err with
      | Some e => ret ([], Some e)
      | None =>
          if (hash1 =? hash2)%Z then
            (* Success *)
            ret (mps, None)
          else getMounts_loop n' fs ctx hash2
      end
  end.

(** [getMounts] returns a slice of all the mounted filesystems. *)
Definition getMounts (fs : FS) (ctx : context_Context)
  : M (list Info * option error) :=
  '(_, hash1, err) <- readProcMounts fs ctx procMountsPath false ;;
  match err with
  | Some e => ret ([], Some e)
  | None => getMounts_loop (Z.to_nat procMountsRetries) fs ctx hash1
  end.

End Methods.

(** ** Observations on a run *)

(** The calls a computation makes when started in [s]. *)
Definition calls `{Host} {A : Type} (m : M A) (s : state) : list call :=
  skipn (length (trace s)) (trace (snd (m s))).

(** A call that runs the format utility [mkfs.<type>]. *)
Definition is_format_call (c : call) : bool :=
  match c with
  | Exec name _ => prefix "mkfs." name
  | _ => false
  end.

(** A call of [fs.mount]. *)
Definition is_mount_call (c : call) : bool :=
  match c with
  | FsMount _ _ _ _ => true
  | _ => false
  end.

(** A read of the mount table with full entry parsing: one per iteration of
    the loop of [getMounts]. *)
Definition is_full_read (c : call) : bool :=
  match c with
  | ReadFrom false => true
  | _ => false
  end.

(** The options handed to the mount primitive by a call. *)
Definition mount_opts (c : call) : list string :=
  match c with
  | FsMount _ _ _ opts => opts
  | DoMount _ _ _ _ opts => opts
  | _ => []
  end.

(** [sub] occurs in [s]. *)
Definition contains (sub s : string) : Prop :=
  exists pre post, s = (pre ++ sub ++ post)%string.

(** Every byte of [s] is in the table [asciiSpace]; true of the empty
    string. *)
Definition blank (s : string) : bool :=
  forallb asciiSpace (list_ascii_of_string s).

(** The arguments [getDiskFormat] hands to blkid. *)
Definition blkid_args (disk : string) : list string :=
  ["-s"; "TYPE"; "-o"; "value"; disk].

(** The calls of one [readProcMounts] that opened the file. *)
Definition read_calls (info : bool) : list call :=
  [OsOpen procMountsPath; ReadFrom (negb info); FileClose].

Section Environment.
Context `{GoStd} `{Host}.

(** The next [n] full reads of the mount table all succeed and each yields
    a fingerprint different from the one read just before it ([prev] for
    the first of them). *)
Fixpoint changing (n : nat) (fs : FS) (ctx : context_Context) (prev : Z)
    (s : state) : Prop :=
  match n with
  | O => True
  | S n' =>
      let '((_, h, err), s') := readProcMounts fs ctx procMountsPath true s in
      err = None /\ h <> prev /\ changing n' fs ctx h s'
  end.


End Environment.

(** ** A scripted host

    A host whose answers are fixed in advance; the runs of the methods
    against it are computed. *)

(** [strconv.Quote] on strings of printable ASCII bytes: a double quote and a
    backslash are escaped with a backslash, the rest is copied. *)
Fixpoint quote_body (s : string) : string :=
  match s with
  | EmptyString => EmptyString
  | String c s' =>
      if (N.eqb (N_of_ascii c) 34 || N.eqb (N_of_ascii c) 92)%bool
      then String (ascii_of_nat 92) (String c (quote_body s'))
      else String c (quote_body s')
  end.

Definition quote_ascii (s : string) : string :=
  (dquote ++ quote_body s ++ dquote)%string.

(** On ASCII input the slow paths of [strings.TrimSpace] are not entered. *)
#[export, refine] Instance ascii_std : GoStd := {|
  TrimFunc_IsSpace := fun s => s;
  TrimRightFunc_IsSpace := fun s => s;
  Quote := quote_ascii
|}.
Proof.
  intros s Hs. unfold quote_ascii. f_equal. f_equal.
  unfold plain in Hs. induction s as [| c s IH]; simpl in *; [reflexivity |].
  apply andb_true_iff in Hs. destruct Hs as [Hc Hs].
  unfold plain_byte in Hc.
  apply andb_true_iff in Hc. destruct Hc as [Hc H92].
  apply andb_true_iff in Hc. destruct Hc as [_ H34].
  apply negb_true_iff in H34, H92. rewrite H34, H92. simpl.
  now rewrite (IH Hs).
Defined.

Record script : Type := {
  blkid_answer : string * option error;
  mkfs_answer : option error;
  mount_answer : option error;
  doMount_answers : list (option error);
  read_answers : list (list string * Z * option error)
}.

Definition scripted_doMount (w : script) : option error * script :=
  match doMount_answers w with
  | [] => (None, w)
  | a :: rest =>
      (a, {| blkid_answer := blkid_answer w; mkfs_answer := mkfs_answer w;
             mount_answer := mount_answer w; doMount_answers := rest;
             read_answers := read_answers w |})
  end.

Definition scripted_read (quick : bool) (w : script)
  : (list string * Z * option error) * script :=
  match read_answers w with
  | [] => (([], 0%Z, None), w)
  | (mps, h, err) :: rest =>
      ((if quick then [] else mps, h, err),
       {| blkid_answer := blkid_answer w; mkfs_answer := mkfs_answer w;
          mount_answer := mount_answer w; doMount_answers := doMount_answers w;
          read_answers := rest |})
  end.

#[export] Instance scripted : Host := {|
  World := script;
  context_Context := unit;
  File := unit;
  Info := string;
  EntryScanFunc := unit;
  ProcMountsFields := 9%Z;
  exec_CombinedOutput := fun _ _ w => (blkid_answer w, w);
  exec_Run := fun _ _ w => (mkfs_answer w, w);
  fs_mount := fun _ _ _ _ _ w => (mount_answer w, w);
  fs_doMount := fun _ _ _ _ _ _ w => scripted_doMount w;
  os_Open := fun _ w => (inl tt, w);
  ReadProcMountsFrom := fun _ _ quick _ _ w => scripted_read quick w;
  file_Close := fun _ w => w
|}.

Definition scripted_fs : @FS scripted := {| ScanEntry := tt |}.

Definition start (w : script) : @state scripted := {| world := w; trace := [] |}.

Definition exit_status (n : Z) : error :=
  NewError ("exit status " ++ itoa n)%string.

(** A device formatted as xfs on which every mount fails. *)
Definition xfs_disk_mount_fails : script := {|
  blkid_answer := ("xfs" ++ String (ascii_of_nat 10) "", None)%string;
  mkfs_answer := None;
  mount_answer := Some (exit_status 32);
  doMount_answers := [];
  read_answers := []
|}.

(** A blank device: blkid exits with status 2; mkfs and mount succeed. *)
Definition blank_disk : script := {|
  blkid_answer := ("", Some (exit_status 2));
  mkfs_answer := None;
  mount_answer := None;
  doMount_answers := [];
  read_answers := []
|}.


(** A host on which the bind step fails. *)
Definition bind_fails : script := {|
  blkid_answer := ("", None);
  mkfs_answer := None;
  mount_answer := None;
  doMount_answers := [Some (exit_status 32)];
  read_answers := []
|}.

(** A mount table that changes between any two reads. *)
Definition table_changes : script := {|
  blkid_answer := ("", None);
  mkfs_answer := None;
  mount_answer := None;
  doMount_answers := [];
  read_answers := [(["a"], 11%Z, None); (["a"; "b"], 12%Z, None);
                   (["a"], 13%Z, None); (["a"; "c"], 14%Z, None)]
|}.

(** A mount table that stays the same. *)
Definition table_stable : script := {|
  blkid_answer := ("", None);
  mkfs_answer := None;
  mount_answer := None;
  doMount_answers := [];
  read_answers := [(["a"; "b"], 7%Z, None); (["a"; "b"], 7%Z, None);
                   (["a"; "b"], 7%Z, None); (["a"; "b"], 7%Z, None)]
|}.

(** ** Further observations *)

Definition is_open (c : call) : bool :=
  match c with
  | OsOpen _ => true
  | _ => false
  end.

Definition is_read (c : call) : bool :=
  match c with
  | ReadFrom _ => true
  | _ => false
  end.

Definition is_close (c : call) : bool :=
  match c with
  | FileClose => true
  | _ => false
  end.

(** An open of the mount table, a read of an open file, or a close. *)
Definition is_table_call (c : call) : bool :=
  match c with
  | OsOpen path => path =? procMountsPath
  | ReadFrom _ => true
  | FileClose => true
  | _ => false
  end.

(** Of a list of calls: at most [opens] opens and [fulls] full reads, as many
    closes as reads, and nothing but opens of the mount table, reads and
    closes. *)
Definition tally (cs : list call) (opens fulls : nat) : Prop :=
  length (filter is_open cs) <= opens
  /\ length (filter is_full_read cs) <= fulls
  /\ length (filter is_close cs) = length (filter is_read cs)
  /\ forallb is_table_call cs = true.

(** A call of [fs.doMount] with command "mount" and no filesystem type. *)
Definition is_plain_doMount (source target : string) (c : call) : bool :=
  match c with
  | DoMount cmd src tgt ty _ =>
      (cmd =? "mount") && (src =? source) && (tgt =? target) && (ty =? "")
  | _ => false
  end.

(** A single-byte rune that is not in the table [asciiSpace]: both loops of
    [strings.TrimSpace] stop at such a byte. *)
Definition solid_byte (c : ascii) : bool :=
  negb (N.leb RuneSelf (N_of_ascii c)) && negb (asciiSpace c).

Definition first_solid (s : string) : bool :=
  match s with
  | EmptyString => false
  | String c _ => solid_byte c
  end.

Fixpoint last_solid (s : string) : bool :=
  match s with
  | EmptyString => false
  | String c EmptyString => solid_byte c
  | String _ s' => last_solid s'
  end.

Section Retries.
Context `{Host}.

(** The next [k] full reads of the mount table succeed, each with a
    fingerprint different from the one before it, and then [P] holds of the
    last fingerprint and of the state reached. *)
Fixpoint after_changing (k : nat) (fs : FS) (ctx : context_Context) (prev : Z)
    (s : state) (P : Z -> state -> Prop) : Prop :=
  match k with
  | O => P prev s
  | S k' =>
      let '((_, h, err), s') := readProcMounts fs ctx procMountsPath true s in
      err = None /\ h <> prev /\ after_changing k' fs ctx h s' P
  end.

End Retries.

(** blkid prints a type and exits with a failure status. *)
Definition probe_fails_with_output : script := {|
  blkid_answer := ("xfs" ++ String (ascii_of_nat 10) "", Some (exit_status 4))%string;
  mkfs_answer := None;
  mount_answer := None;
  doMount_answers := [];
  read_answers := []
|}.

(** A formatted device on which the mount succeeds. *)
Definition ext4_disk : script := {|
  blkid_answer := (" ext4" ++ String (ascii_of_nat 10) "", None)%string;
  mkfs_answer := None;
  mount_answer := None;
  doMount_answers := [];
  read_answers := []
|}.

(** A mount table that changes once and then cannot be read. *)
Definition table_read_error : script := {|
  blkid_answer := ("", None);
  mkfs_answer := None;
  mount_answer := None;
  doMount_answers := [];
  read_answers := [(["a"], 1%Z, None); (["a"; "b"], 2%Z, None);
                   ([], 0%Z, Some (NewError "unexpected EOF"))]
|}.

(** A mount table that changes once and then stays the same. *)
Definition table_settles : script := {|
  blkid_answer := ("", None);
  mkfs_answer := None;
  mount_answer := None;
  doMount_answers := [];
  read_answers := [(["a"], 1%Z, None); (["a"; "b"], 2%Z, None);
                   (["a"; "b"], 2%Z, None)]
|}.

(** A host without a mount table: every open fails. *)
Definition no_table : Host := {|
  World := unit;
  context_Context := unit;
  File := unit;
  Info := string;
  EntryScanFunc := unit;
  ProcMountsFields := 9%Z;
  exec_CombinedOutput := fun _ _ w => (("", None), w);
  exec_Run := fun _ _ w => (None, w);
  fs_mount := fun _ _ _ _ _ w => (None, w);
  fs_doMount := fun _ _ _ _ _ _ w => (None, w);
  os_Open := fun path w =>
    (inr (NewError ("open " ++ path ++ ": no such file or directory")%string), w);
  ReadProcMountsFrom := fun _ _ _ _ _ w => (([], 0%Z, None), w);
  file_Close := fun _ w => w
|}.

Definition no_table_fs : @FS no_table := @Build_FS no_table tt.

Definition no_table_start : @state no_table := @Build_state no_table tt [].

(** * Properties *)

(** ** Strings *)

Lemma length_zero_eqb (s : string) : (String.length s =? 0)%nat = (s =? "").
Proof. destruct s; reflexivity. Qed.

Lemma eqb_empty_iff (s : string) : (s =? "") = true <-> s = "".
Proof. apply String.eqb_eq. Qed.

Lemma asciiSpace_single_byte (c : ascii) :
  asciiSpace c = true -> N.leb RuneSelf (N_of_ascii c) = false.
Proof.
  unfold asciiSpace, RuneSelf. intros Hc.
  apply N.leb_gt.
  apply orb_true_iff in Hc. destruct Hc as [Hc | Hc].
  - apply andb_true_iff in Hc. destruct Hc as [_ Hc].
    apply N.leb_le in Hc. lia.
  - apply N.eqb_eq in Hc. lia.
Qed.

Lemma TrimSpace_start_blank (s : string) :
  blank s = true -> TrimSpace_start s = (false, "").
Proof.
  unfold blank. induction s as [| c s IH]; simpl; intros Hs.
  - reflexivity.
  - apply andb_true_iff in Hs. destruct Hs as [Hc Hs].
    rewrite (asciiSpace_single_byte c Hc), Hc. auto.
Qed.

Lemma TrimSpace_blank `{GoStd} (s : string) : blank s = true -> TrimSpace s = "".
Proof.
  intros Hs. unfold TrimSpace. rewrite (TrimSpace_start_blank s Hs). reflexivity.
Qed.

Lemma contains_intro (pre sub post : string) :
  contains sub (pre ++ sub ++ post)%string.
Proof. exists pre, post. reflexivity. Qed.

Lemma append_assoc (a b c : string) : ((a ++ b) ++ c = a ++ b ++ c)%string.
Proof. induction a as [| x a IH]; simpl; [reflexivity | now rewrite IH]. Qed.

Lemma length_append (a b : string) :
  String.length (a ++ b)%string = String.length a + String.length b.
Proof. induction a as [| x a IH]; simpl; [reflexivity | now rewrite IH]. Qed.

(** ** Traces *)

Section Runs.
Context `{GoStd} `{Host}.

Lemma calls_appended {A : Type} (m : M A) (s : state) (new : list call) :
  trace (snd (m s)) = trace s ++ new -> calls m s = new.
Proof.
  unfold calls. intros ->.
  rewrite skipn_app, skipn_all, Nat.sub_diag. reflexivity.
Qed.

(** One run of [getDiskFormat]: a single call of blkid; the type is the
    trimmed output when blkid succeeds and empty otherwise; the error is
    nil. *)
Lemma getDiskFormat_run (fs : FS) (ctx : context_Context) (disk : string)
    (s : state) :
  getDiskFormat fs ctx disk s =
    let '((out, err), w) := exec_CombinedOutput "blkid" (blkid_args disk) (world s) in
    ((match err with Some _ => "" | None => TrimSpace out end, None),
     {| world := w; trace := trace s ++ [Exec "blkid" (blkid_args disk)] |}).
Proof.
  unfold getDiskFormat, bind, invoke, log, ret, blkid_args.
  destruct (exec_CombinedOutput _ _ _) as [[out [e |]] w]; [reflexivity |].
  destruct (TrimSpace out =? "") eqn:E; simpl; [| reflexivity].
  apply eqb_empty_iff in E. now rewrite E.
Qed.

(** One run of [formatAndMount]: the probe, then one of the two branches. *)
Lemma formatAndMount_run (fs : FS) (ctx : context_Context)
    (source target fsType : string) (opts : list string) (s : state) :
  formatAndMount fs ctx source target fsType opts s =
    (let '((existingFormat, _), s1) := getDiskFormat fs ctx source s in
     if existingFormat =? "" then
       formatAndMount_unformatted ctx source target fsType (opts ++ ["defaults"]) s1
     else
       formatAndMount_formatted ctx source target fsType (opts ++ ["defaults"])
         existingFormat s1).
Proof.
  unfold formatAndMount, bind. rewrite getDiskFormat_run.
  destruct (exec_CombinedOutput _ _ _) as [[out err] w]. simpl.
  destruct (_ =? ""); reflexivity.
Qed.

End Runs.

(** ** The format probe *)

Section Probe.
Context `{GoStd} `{Host}.

(** C6: [getDiskFormat] returns the empty type and a nil error when blkid
    exits with a failure status, and also when blkid succeeds and prints
    nothing or only white space. *)
Theorem getDiskFormat_blank_device (fs : FS) (ctx : context_Context)
    (disk : string) (s : state) (out : string) (err : option error) (w : World) :
  exec_CombinedOutput "blkid" (blkid_args disk) (world s) = ((out, err), w) ->
  err <> None \/ blank out = true ->
  fst (getDiskFormat fs ctx disk s) = ("", None).
Proof.
  intros Hrun Hcase. rewrite getDiskFormat_run, Hrun. simpl.
  destruct err as [e |]; [reflexivity |].
  destruct Hcase as [Hne | Hblank]; [congruence |].
  now rewrite (TrimSpace_blank out Hblank).
Qed.

(** C9: the error returned by [getDiskFormat] is nil whatever blkid does, so
    [formatAndMount] never takes the branch that returns the probe's error:
    it always continues with one of the two branches that follow the
    probe. *)
Theorem getDiskFormat_error_nil (fs : FS) (ctx : context_Context)
    (source target fsType : string) (opts : list string) (s : state) :
  snd (fst (getDiskFormat fs ctx source s)) = None
  /\ formatAndMount fs ctx source target fsType opts s =
       (let '((existingFormat, _), s1) := getDiskFormat fs ctx source s in
        if existingFormat =? "" then
          formatAndMount_unformatted ctx source target fsType (opts ++ ["defaults"]) s1
        else
          formatAndMount_formatted ctx source target fsType (opts ++ ["defaults"])
            existingFormat s1).
Proof.
  split; [| apply formatAndMount_run].
  rewrite getDiskFormat_run.
  now destruct (exec_CombinedOutput _ _ _) as [[out err] w].
Qed.

End Probe.

(** ** Format and mount *)

Section FormatAndMount.
Context `{GoStd} `{Host}.

(** The type that is formatted and mounted when the disk is unformatted. *)
Lemma effective_type (fsType : string) :
  (if (String.length fsType =? 0)%nat then "ext4" else fsType) =
  (if string_dec fsType "" then "ext4" else fsType).
Proof.
  destruct fsType as [| c r]; simpl; [reflexivity |].
  destruct (string_dec (String c r) "") as [E | _]; [discriminate | reflexivity].
Qed.

(** The arguments of the format utility. *)
Lemma format_args (source ty : string) :
  (if (ty =? "ext4") || (ty =? "ext3") then ["-F"; source] else [source]) =
  (if string_dec ty "ext4" then ["-F"; source]
   else if string_dec ty "ext3" then ["-F"; source] else [source]).
Proof.
  destruct (string_dec ty "ext4") as [-> | N4]; [reflexivity |].
  apply String.eqb_neq in N4. rewrite N4. simpl.
  destruct (string_dec ty "ext3") as [-> | N3]; [reflexivity |].
  apply String.eqb_neq in N3. now rewrite N3.
Qed.

Lemma formatAndMount_unformatted_run (ctx : context_Context)
    (source target fsType : string) (opts : list string) (s : state) :
  let ty := if string_dec fsType "" then "ext4" else fsType in
  let args := if string_dec ty "ext4" then ["-F"; source]
              else if string_dec ty "ext3" then ["-F"; source] else [source] in
  let mkfs := ("mkfs." ++ ty)%string in
  formatAndMount_unformatted ctx source target fsType opts s =
    match exec_Run mkfs args (world s) with
    | (Some e, w1) => (Some e, {| world := w1; trace := trace s ++ [Exec mkfs args] |})
    | (None, w1) =>
        (fst (fs_mount ctx source target ty opts w1),
         {| world := snd (fs_mount ctx source target ty opts w1);
            trace := trace s ++ [Exec mkfs args; FsMount source target ty opts] |})
    end.
Proof.
  intros ty args mkfs.
  unfold formatAndMount_unformatted, bind, invoke, log, ret.
  rewrite effective_type. fold ty. rewrite format_args. fold args. fold mkfs.
  simpl. destruct (exec_Run mkfs args (world s)) as [[e |] w1]; [reflexivity |].
  simpl. destruct (fs_mount ctx source target ty opts w1) as [r w2]. simpl.
  now rewrite <- app_assoc.
Qed.

Lemma formatAndMount_formatted_run (ctx : context_Context)
    (source target fsType : string) (opts : list string)
    (existingFormat : string) (s : state) :
  formatAndMount_formatted ctx source target fsType opts existingFormat s =
    (match fst (fs_mount ctx source target fsType opts (world s)) with
     | None => None
     | Some mountErr =>
         if (fsType =? "") || (fsType =? existingFormat) then Some mountErr
         else Some (fmt_Errorf
           ("failed to mount volume as " ++ Quote fsType
            ++ "; already contains " ++ existingFormat
            ++ ": error: " ++ Error mountErr)%string)
     end,
     {| world := snd (fs_mount ctx source target fsType opts (world s));
        trace := trace s ++ [FsMount source target fsType opts] |}).
Proof.
  unfold formatAndMount_formatted, bind, invoke, log, ret.
  rewrite length_zero_eqb.
  destruct (fs_mount ctx source target fsType opts (world s)) as [[e |] w1]; simpl.
  - destruct ((fsType =? "") || (fsType =? existingFormat)); reflexivity.
  - reflexivity.
Qed.

End FormatAndMount.

Section FormatAndMountClaims.
Context `{GoStd} `{Host}.

(** C1: when the probe reports a non-empty filesystem type, [formatAndMount]
    makes exactly two calls, blkid and [fs.mount]; none of its calls runs a
    format utility [mkfs.<type>], whatever the requested type, the options
    and the outcome of the mount. *)
Theorem formatAndMount_formatted_never_formats (fs : FS) (ctx : context_Context)
    (source target fsType : string) (opts : list string) (s : state) :
  fst (fst (getDiskFormat fs ctx source s)) <> "" ->
  calls (formatAndMount fs ctx source target fsType opts) s =
    [Exec "blkid" (blkid_args source);
     FsMount source target fsType (opts ++ ["defaults"])]
  /\ existsb is_format_call
       (calls (formatAndMount fs ctx source target fsType opts) s) = false.
Proof.
  intros Hprobe.
  assert (Hcalls : calls (formatAndMount fs ctx source target fsType opts) s =
    [Exec "blkid" (blkid_args source);
     FsMount source target fsType (opts ++ ["defaults"])]).
  { apply calls_appended. rewrite formatAndMount_run.
    revert Hprobe. rewrite getDiskFormat_run.
    destruct (exec_CombinedOutput _ _ _) as [[out err] w]. simpl. intros Hne.
    destruct (_ =? "") eqn:E; [apply eqb_empty_iff in E; contradiction |].
    rewrite formatAndMount_formatted_run. simpl. now rewrite <- app_assoc. }
  split; [exact Hcalls |]. rewrite Hcalls. reflexivity.
Qed.

(** C2: the disk is formatted as [existingFormat] and the mount fails with
    [mountErr].  When the requested type is empty or is [existingFormat],
    [formatAndMount] returns [mountErr] itself.  When the requested type is
    not empty and differs from [existingFormat], it returns a new error
    whose text holds the quoted requested type (the requested type itself
    between double quotes when it is a plain string) and [existingFormat]. *)
Theorem formatAndMount_mount_failure (fs : FS) (ctx : context_Context)
    (source target fsType : string) (opts : list string) (s s1 : state)
    (existingFormat : string) (mountErr : error) (w2 : World) :
  getDiskFormat fs ctx source s = ((existingFormat, None), s1) ->
  existingFormat <> "" ->
  fs_mount ctx source target fsType (opts ++ ["defaults"]) (world s1) =
    (Some mountErr, w2) ->
  (fsType = "" \/ fsType = existingFormat ->
     fst (formatAndMount fs ctx source target fsType opts s) = Some mountErr)
  /\ (fsType <> "" -> fsType <> existingFormat ->
      exists e,
        fst (formatAndMount fs ctx source target fsType opts s) = Some e
        /\ Error e = ("failed to mount volume as " ++ Quote fsType
                      ++ "; already contains " ++ existingFormat
                      ++ ": error: " ++ Error mountErr)%string
        /\ contains (Quote fsType) (Error e)
        /\ (plain fsType = true -> contains fsType (Error e))
        /\ contains existingFormat (Error e)
        /\ e <> mountErr).
Proof.
  intros Hprobe Hfmt Hmount.
  rewrite formatAndMount_run, Hprobe.
  apply String.eqb_neq in Hfmt. rewrite Hfmt.
  rewrite formatAndMount_formatted_run, Hmount. simpl.
  split.
  - intros [-> | ->]; [reflexivity |].
    rewrite String.eqb_refl, orb_true_r. reflexivity.
  - intros Hne Hdiff.
    apply String.eqb_neq in Hne, Hdiff. rewrite Hne, Hdiff. simpl.
    eexists. split; [reflexivity |]. simpl.
    split; [reflexivity |]. split; [| split; [| split]].
    + apply (contains_intro "failed to mount volume as ").
    + intros Hplain. rewrite (Quote_plain fsType Hplain).
      exists ("failed to mount volume as " ++ dquote)%string,
             (dquote ++ "; already contains " ++ existingFormat
              ++ ": error: " ++ Error mountErr)%string.
      now rewrite !append_assoc.
    + exists ("failed to mount volume as " ++ Quote fsType ++ "; already contains ")%string,
             (": error: " ++ Error mountErr)%string.
      now rewrite !append_assoc.
    + intros Heq. apply (f_equal (fun e => String.length (Error e))) in Heq.
      simpl in Heq. repeat (rewrite length_append in Heq; simpl in Heq). lia.
Qed.

(** C7: the disk is unformatted.  The type that is formatted and mounted is
    the requested one, or "ext4" when none is requested; mkfs.<type> gets
    "-F" and the device for ext4 and ext3 and the device alone otherwise; a
    failing mkfs ends the call with the error of mkfs; after a successful
    mkfs the device is mounted with that type and the options, and the
    result of the mount is the result of the call. *)
Theorem formatAndMount_unformatted_path (fs : FS) (ctx : context_Context)
    (source target fsType : string) (opts : list string) (s s1 : state) :
  getDiskFormat fs ctx source s = (("", None), s1) ->
  let ty := if string_dec fsType "" then "ext4" else fsType in
  let args := if string_dec ty "ext4" then ["-F"; source]
              else if string_dec ty "ext3" then ["-F"; source] else [source] in
  let mkfs := ("mkfs." ++ ty)%string in
  formatAndMount fs ctx source target fsType opts s =
    match exec_Run mkfs args (world s1) with
    | (Some e, w1) =>
        (Some e, {| world := w1; trace := trace s1 ++ [Exec mkfs args] |})
    | (None, w1) =>
        (fst (fs_mount ctx source target ty (opts ++ ["defaults"]) w1),
         {| world := snd (fs_mount ctx source target ty (opts ++ ["defaults"]) w1);
            trace := trace s1 ++ [Exec mkfs args;
                                  FsMount source target ty (opts ++ ["defaults"])] |})
    end.
Proof.
  intros Hprobe ty args mkfs.
  rewrite formatAndMount_run, Hprobe. simpl.
  apply formatAndMount_unformatted_run.
Qed.

(** C10: every call of [fs.mount] made by [formatAndMount] is on the given
    source and target with the caller's options followed by "defaults".
    The calls of one run are the probe and the mount (formatted disk), the
    probe and a failed mkfs, or the probe, mkfs and the mount. *)
Theorem formatAndMount_appends_defaults (fs : FS) (ctx : context_Context)
    (source target fsType : string) (opts : list string) (s : state) :
  let cs := calls (formatAndMount fs ctx source target fsType opts) s in
  (forall c, In c cs -> is_mount_call c = true ->
     mount_opts c = opts ++ ["defaults"]
     /\ exists ty, c = FsMount source target ty (opts ++ ["defaults"]))
  /\ exists ty args,
       cs = [Exec "blkid" (blkid_args source);
             FsMount source target fsType (opts ++ ["defaults"])]
       \/ cs = [Exec "blkid" (blkid_args source); Exec ("mkfs." ++ ty) args]
       \/ cs = [Exec "blkid" (blkid_args source); Exec ("mkfs." ++ ty) args;
                FsMount source target ty (opts ++ ["defaults"])].
Proof.
  intros cs.
  assert (Hshape : exists ty args,
       cs = [Exec "blkid" (blkid_args source);
             FsMount source target fsType (opts ++ ["defaults"])]
       \/ cs = [Exec "blkid" (blkid_args source); Exec ("mkfs." ++ ty) args]
       \/ cs = [Exec "blkid" (blkid_args source); Exec ("mkfs." ++ ty) args;
                FsMount source target ty (opts ++ ["defaults"])]).
  { subst cs.
    pose proof (formatAndMount_run fs ctx source target fsType opts s) as Hrun.
    rewrite getDiskFormat_run in Hrun.
    destruct (exec_CombinedOutput _ _ _) as [[out err] w]. simpl in Hrun.
    destruct (_ =? "") in Hrun.
    - pose proof (formatAndMount_unformatted_run ctx source target fsType
                    (opts ++ ["defaults"])
                    {| world := w;
                       trace := trace s ++ [Exec "blkid" (blkid_args source)] |})
        as Hbranch.
      cbv zeta in Hbranch. rewrite Hbranch in Hrun. clear Hbranch.
      eexists; eexists.
      destruct (exec_Run _ _ _) as [[e |] w1]; simpl in Hrun.
      + right; left. apply calls_appended. rewrite Hrun. simpl.
        now rewrite <- app_assoc.
      + right; right. apply calls_appended. rewrite Hrun. simpl.
        now rewrite <- app_assoc.
    - rewrite formatAndMount_formatted_run in Hrun.
      exists "", []. left. apply calls_appended. rewrite Hrun. simpl.
      now rewrite <- app_assoc. }
  split; [| exact Hshape].
  destruct Hshape as (ty & args & [-> | [-> | ->]]); simpl;
    intros c Hin Hmount;
    repeat (destruct Hin as [<- | Hin]; [try discriminate |]);
    try contradiction; (split; [reflexivity | eexists; reflexivity]).
Qed.

End FormatAndMountClaims.

(** ** Bind mount *)

Section BindMount.
Context `{Host}.

(** C8: when the bind step fails, [bindMount] returns the error of that step
    and makes no second call of the mount primitive. *)
Theorem bindMount_bind_failure (fs : FS) (ctx : context_Context)
    (source target : string) (opts : list string) (s : state)
    (e : error) (w : World) :
  fs_doMount ctx "mount" source target "" ["bind"] (world s) = (Some e, w) ->
  bindMount fs ctx source target opts s =
    (Some e, {| world := w;
                trace := trace s ++ [DoMount "mount" source target "" ["bind"]] |})
  /\ calls (bindMount fs ctx source target opts) s =
       [DoMount "mount" source target "" ["bind"]].
Proof.
  intros Hbind.
  assert (Hrun : bindMount fs ctx source target opts s =
    (Some e, {| world := w;
                trace := trace s ++ [DoMount "mount" source target "" ["bind"]] |})).
  { unfold bindMount, bind, invoke, ret. now rewrite Hbind. }
  split; [exact Hrun |].
  apply calls_appended. now rewrite Hrun.
Qed.


End BindMount.

(** ** Mount-table snapshot *)

Section Snapshot.
Context `{Host}.

Lemma readProcMounts_run (fs : FS) (ctx : context_Context) (path : string)
    (info : bool) (s : state) :
  readProcMounts fs ctx path info s =
    match os_Open path (world s) with
    | (inr e, w) =>
        (([], 0%Z, Some e), {| world := w; trace := trace s ++ [OsOpen path] |})
    | (inl file, w) =>
        let '(res, w1) :=
          ReadProcMountsFrom ctx file (negb info) ProcMountsFields (ScanEntry fs) w in
        (res, {| world := file_Close file w1;
                 trace := trace s ++ [OsOpen path; ReadFrom (negb info); FileClose] |})
    end.
Proof.
  unfold readProcMounts, bind, invoke, ret.
  destruct (os_Open path (world s)) as [[file | e] w]; simpl; [| reflexivity].
  destruct (ReadProcMountsFrom _ _ _ _ _ _) as [res w1]. simpl.
  now rewrite <- !app_assoc.
Qed.

(** A read that returns no error opened, read and closed the file. *)
Lemma readProcMounts_ok_trace (fs : FS) (ctx : context_Context) (info : bool)
    (s s' : state) (mps : list Info) (h : Z) :
  readProcMounts fs ctx procMountsPath info s = ((mps, h, None), s') ->
  trace s' = trace s ++ read_calls info.
Proof.
  rewrite readProcMounts_run.
  destruct (os_Open procMountsPath (world s)) as [[file | e] w]; [| discriminate].
  destruct (ReadProcMountsFrom _ _ _ _ _ _) as [res w1].
  intros Heq. injection Heq as _ <-. reflexivity.
Qed.

(** The error of [getMounts] when the retries are used up. *)
Lemma snapshot_error_text :
  ("failed to get a consistent snapshot of " ++ procMountsPath
   ++ " after " ++ itoa procMountsRetries ++ " tries")%string =
  "failed to get a consistent snapshot of /proc/self/mountinfo after 3 tries".
Proof. reflexivity. Qed.

(** The loop of [getMounts] on a table that keeps changing: all [n]
    iterations run, each makes one full read, and the loop ends with the
    error. *)
Lemma getMounts_loop_changing (fs : FS) (ctx : context_Context) (n : nat) :
  forall (prev : Z) (s : state),
    changing n fs ctx prev s ->
    fst (getMounts_loop n fs ctx prev s) =
      ([], Some (fmt_Errorf
         "failed to get a consistent snapshot of /proc/self/mountinfo after 3 tries"))
    /\ trace (snd (getMounts_loop n fs ctx prev s)) =
         trace s ++ concat (repeat (read_calls true) n).
Proof.
  induction n as [| n IH]; intros prev s Hch.
  - cbn [getMounts_loop]. unfold ret. rewrite snapshot_error_text. simpl.
    now rewrite app_nil_r.
  - cbn [getMounts_loop changing] in *. unfold bind.
    destruct (readProcMounts fs ctx procMountsPath true s) as [[[mps h] err] s'] eqn:Hread.
    destruct Hch as (-> & Hne & Hch).
    apply Z.eqb_neq in Hne. rewrite Z.eqb_sym in Hne. rewrite Hne.
    destruct (IH h s' Hch) as [Hres Htr].
    split; [exact Hres |].
    rewrite Htr, (readProcMounts_ok_trace _ _ _ _ _ _ _ Hread).
    cbn [repeat concat]. now rewrite <- app_assoc.
Qed.

(** C4: when the first read succeeds and each of the following reads
    succeeds with a fingerprint different from that of the read before it,
    [getMounts] runs its loop [procMountsRetries] = 3 times, one full read
    each, and returns the error that names the mount-table path and the
    number of tries. *)
Theorem getMounts_inconsistent (fs : FS) (ctx : context_Context)
    (s s1 : state) (m0 : list Info) (h0 : Z) :
  readProcMounts fs ctx procMountsPath false s = ((m0, h0, None), s1) ->
  changing (Z.to_nat procMountsRetries) fs ctx h0 s1 ->
  fst (getMounts fs ctx s) =
    ([], Some (fmt_Errorf
       "failed to get a consistent snapshot of /proc/self/mountinfo after 3 tries"))
  /\ calls (getMounts fs ctx) s =
       read_calls false ++ read_calls true ++ read_calls true ++ read_calls true
  /\ length (filter is_full_read (calls (getMounts fs ctx) s)) = 3.
Proof.
  intros Hfirst Hch.
  destruct (getMounts_loop_changing fs ctx _ _ _ Hch) as [Hres Htr].
  assert (Hrun : getMounts fs ctx s =
            getMounts_loop (Z.to_nat procMountsRetries) fs ctx h0 s1).
  { unfold getMounts, bind. now rewrite Hfirst. }
  assert (Hcalls : calls (getMounts fs ctx) s =
    read_calls false ++ read_calls true ++ read_calls true ++ read_calls true).
  { apply calls_appended. rewrite Hrun, Htr.
    rewrite (readProcMounts_ok_trace _ _ _ _ _ _ _ Hfirst).
    rewrite <- app_assoc. reflexivity. }
  split; [now rewrite Hrun |].
  split; [exact Hcalls |].
  rewrite Hcalls. reflexivity.
Qed.

(** C5: when the first read and the first full read both succeed with the
    same fingerprint, [getMounts] succeeds in the first iteration of its
    loop and returns the entries of that full read. *)
Theorem getMounts_stable (fs : FS) (ctx : context_Context)
    (s s1 s2 : state) (m0 mps : list Info) (h : Z) :
  readProcMounts fs ctx procMountsPath false s = ((m0, h, None), s1) ->
  readProcMounts fs ctx procMountsPath true s1 = ((mps, h, None), s2) ->
  getMounts fs ctx s = ((mps, None), s2)
  /\ calls (getMounts fs ctx) s = read_calls false ++ read_calls true
  /\ length (filter is_full_read (calls (getMounts fs ctx) s)) = 1.
Proof.
  intros Hfirst Hsecond.
  assert (Hrun : getMounts fs ctx s = ((mps, None), s2)).
  { unfold getMounts, bind. rewrite Hfirst.
    change (Z.to_nat procMountsRetries) with 3%nat.
    cbn [getMounts_loop]. unfold bind. rewrite Hsecond, Z.eqb_refl. reflexivity. }
  assert (Hcalls : calls (getMounts fs ctx) s = read_calls false ++ read_calls true).
  { apply calls_appended. rewrite Hrun. simpl.
    rewrite (readProcMounts_ok_trace _ _ _ _ _ _ _ Hsecond).
    rewrite (readProcMounts_ok_trace _ _ _ _ _ _ _ Hfirst).
    now rewrite <- app_assoc. }
  split; [exact Hrun |]. split; [exact Hcalls |].
  rewrite Hcalls. reflexivity.
Qed.

End Snapshot.

(** ** Runs against the scripted host *)

Lemma formatAndMount_formatted_never_formats_witness :
  existsb is_format_call
    (calls (formatAndMount scripted_fs tt "/dev/sdb" "/mnt" "ext4" ["ro"])
           (start xfs_disk_mount_fails)) = false.
Proof.
  refine (proj2 (formatAndMount_formatted_never_formats scripted_fs tt
                   "/dev/sdb" "/mnt" "ext4" ["ro"] (start xfs_disk_mount_fails) _)).
  vm_compute. discriminate.
Defined.

Lemma formatAndMount_mount_failure_witness :
  fst (formatAndMount scripted_fs tt "/dev/sdb" "/mnt" "xfs" ["ro"]
         (start xfs_disk_mount_fails)) = Some (exit_status 32)
  /\ exists e,
       fst (formatAndMount scripted_fs tt "/dev/sdb" "/mnt" "ext4" ["ro"]
              (start xfs_disk_mount_fails)) = Some e
       /\ Error e = ("failed to mount volume as " ++ quote_ascii "ext4"
                     ++ "; already contains xfs: error: exit status 32")%string.
Proof.
  split.
  - eapply (formatAndMount_mount_failure scripted_fs tt "/dev/sdb" "/mnt" "xfs" ["ro"]
              (start xfs_disk_mount_fails) _ "xfs");
      [reflexivity | discriminate | reflexivity | now right].
  - destruct (formatAndMount_mount_failure scripted_fs tt "/dev/sdb" "/mnt" "ext4" ["ro"]
                (start xfs_disk_mount_fails) _ "xfs" (exit_status 32) xfs_disk_mount_fails
                eq_refl ltac:(discriminate) eq_refl) as [_ Hmismatch].
    destruct (Hmismatch ltac:(discriminate) ltac:(discriminate))
      as (e & Hres & Htext & _).
    exists e. split; [exact Hres | exact Htext].
Defined.


Lemma bindMount_bind_failure_witness :
  calls (bindMount scripted_fs tt "/srv/data" "/mnt" ["ro"]) (start bind_fails) =
    [DoMount "mount" "/srv/data" "/mnt" "" ["bind"]].
Proof.
  eapply proj2. eapply (bindMount_bind_failure scripted_fs tt). reflexivity.
Defined.

Lemma getMounts_inconsistent_witness :
  fst (getMounts scripted_fs tt (start table_changes)) =
    ([], Some (NewError
       "failed to get a consistent snapshot of /proc/self/mountinfo after 3 tries")).
Proof.
  eapply proj1. eapply (getMounts_inconsistent scripted_fs tt (start table_changes)).
  - reflexivity.
  - vm_compute. repeat split; discriminate.
Defined.

Lemma getMounts_stable_witness :
  fst (getMounts scripted_fs tt (start table_stable)) = (["a"; "b"], None).
Proof.
  destruct (getMounts_stable scripted_fs tt (start table_stable) _ _ [] ["a"; "b"] 7%Z
              eq_refl eq_refl) as [Hrun _].
  rewrite Hrun. reflexivity.
Defined.

Lemma getDiskFormat_blank_device_witness :
  fst (getDiskFormat scripted_fs tt "/dev/sdb" (start blank_disk)) = ("", None).
Proof.
  eapply (getDiskFormat_blank_device scripted_fs tt "/dev/sdb" (start blank_disk)).
  - reflexivity.
  - left. discriminate.
Defined.

Lemma formatAndMount_unformatted_path_witness :
  formatAndMount scripted_fs tt "/dev/sdb" "/mnt" "" ["ro"] (start blank_disk) =
    (None, {| world := blank_disk;
              trace := [Exec "blkid" (blkid_args "/dev/sdb");
                        Exec "mkfs.ext4" ["-F"; "/dev/sdb"];
                        FsMount "/dev/sdb" "/mnt" "ext4" ["ro"; "defaults"]] |}).
Proof.
  exact (formatAndMount_unformatted_path scripted_fs tt "/dev/sdb" "/mnt" "" ["ro"]
           (start blank_disk) _ eq_refl).
Defined.


(** * Further properties *)

(** ** The probe trims the output of blkid *)

Lemma solid_byte_stops (c : ascii) :
  solid_byte c = true ->
  N.leb RuneSelf (N_of_ascii c) = false /\ asciiSpace c = false.
Proof.
  unfold solid_byte. intros Hc.
  apply andb_true_iff in Hc. destruct Hc as [Ha Hb].
  apply negb_true_iff in Ha, Hb. now split.
Qed.

Lemma TrimSpace_start_skips (pre x : string) :
  blank pre = true -> first_solid x = true ->
  TrimSpace_start (pre ++ x) = (false, x).
Proof.
  unfold blank. induction pre as [| c pre IH]; simpl; intros Hpre Hx.
  - destruct x as [| a r]; [discriminate |]. simpl in *.
    destruct (solid_byte_stops a Hx) as [-> ->]. reflexivity.
  - apply andb_true_iff in Hpre. destruct Hpre as [Hc Hpre].
    rewrite (asciiSpace_single_byte c Hc), Hc. auto.
Qed.

Lemma TrimSpace_stop_blank (post : string) :
  blank post = true -> TrimSpace_stop post = (false, "").
Proof.
  unfold blank. induction post as [| c post IH]; simpl; intros Hpost.
  - reflexivity.
  - apply andb_true_iff in Hpost. destruct Hpost as [Hc Hpost].
    rewrite (IH Hpost), (asciiSpace_single_byte c Hc), Hc. reflexivity.
Qed.

Lemma TrimSpace_stop_skips (x post : string) :
  blank post = true -> TrimSpace_stop (x ++ post) = TrimSpace_stop x.
Proof.
  intros Hpost. induction x as [| c x IH]; simpl.
  - now apply TrimSpace_stop_blank.
  - now rewrite IH.
Qed.

Lemma TrimSpace_stop_solid (x : string) :
  last_solid x = true -> TrimSpace_stop x = (false, x).
Proof.
  induction x as [| c x IH]; [discriminate |].
  destruct x as [| d x'].
  - simpl. intros Hc. destruct (solid_byte_stops c Hc) as [-> ->]. reflexivity.
  - intros Hlast. change (last_solid (String d x') = true) in Hlast.
    change (TrimSpace_stop (String c (String d x')))
      with (match TrimSpace_stop (String d x') with
            | (_, EmptyString) =>
                if N.leb RuneSelf (N_of_ascii c) then (true, String c EmptyString)
                else if asciiSpace c then (false, EmptyString)
                else (false, String c EmptyString)
            | (b, t) => (b, String c t)
            end).
    now rewrite (IH Hlast).
Qed.

Lemma first_solid_append (x post : string) :
  first_solid x = true -> first_solid (x ++ post) = true.
Proof. destruct x; [discriminate | auto]. Qed.

Lemma TrimSpace_core `{GoStd} (pre core post : string) :
  blank pre = true -> blank post = true ->
  first_solid core = true -> last_solid core = true ->
  TrimSpace (pre ++ core ++ post) = core.
Proof.
  intros Hpre Hpost Hfirst Hlast. unfold TrimSpace.
  rewrite (TrimSpace_start_skips pre (core ++ post) Hpre
             (first_solid_append core post Hfirst)).
  now rewrite (TrimSpace_stop_skips core post Hpost), (TrimSpace_stop_solid core Hlast).
Qed.

Section ProbeMore.
Context `{GoStd} `{Host}.

(** X1: when blkid succeeds and prints a type surrounded by ASCII white
    space (a trailing newline, say), [getDiskFormat] returns the type without
    the white space, and a nil error; the type is any string that begins and
    ends with a single-byte rune that is not white space. *)
Theorem getDiskFormat_trims_output (fs : FS) (ctx : context_Context)
    (disk : string) (s : state) (pre core post : string) (w : World) :
  exec_CombinedOutput "blkid" (blkid_args disk) (world s) =
    (((pre ++ core ++ post)%string, None), w) ->
  blank pre = true -> blank post = true ->
  first_solid core = true -> last_solid core = true ->
  fst (getDiskFormat fs ctx disk s) = (core, None).
Proof.
  intros Hrun Hpre Hpost Hfirst Hlast.
  rewrite getDiskFormat_run, Hrun. simpl.
  now rewrite (TrimSpace_core pre core post Hpre Hpost Hfirst Hlast).
Qed.

End ProbeMore.

Lemma getDiskFormat_trims_output_witness :
  fst (getDiskFormat scripted_fs tt "/dev/sdb" (start ext4_disk)) = ("ext4", None).
Proof.
  eapply (getDiskFormat_trims_output scripted_fs tt "/dev/sdb" (start ext4_disk)
            " " "ext4" (String (ascii_of_nat 10) "")); reflexivity.
Defined.

(** ** More on format and mount *)

Lemma prefix_empty (s : string) : prefix "" s = true.
Proof. now destruct s. Qed.

Lemma calls_appended_twice `{Host} {A : Type} (m : M A) (s : state)
    (a b : list call) :
  trace (snd (m s)) = (trace s ++ a) ++ b -> calls m s = a ++ b.
Proof. rewrite <- app_assoc. apply calls_appended. Qed.

(** From a run [m s = (r, s')] whose trace is that of [s] followed by two
    lists of calls: the calls of [m] in [s]. *)
Ltac calls_of Hrun :=
  match type of Hrun with
  | ?m ?s = (_, {| world := _; trace := (trace ?s ++ ?a) ++ ?b |}) =>
      let Hc := fresh "Hcalls" in
      assert (Hc : calls m s = a ++ b)
        by (apply calls_appended_twice; rewrite Hrun; reflexivity);
      rewrite Hc
  end.

Section FormatAndMountMore.
Context `{GoStd} `{Host}.

(** The state after the probe of [formatAndMount]. *)
Lemma formatAndMount_probed (fs : FS) (ctx : context_Context)
    (source target fsType : string) (opts : list string) (s : state) :
  let existingFormat := fst (fst (getDiskFormat fs ctx source s)) in
  let s1 := {| world := snd (exec_CombinedOutput "blkid" (blkid_args source) (world s));
               trace := trace s ++ [Exec "blkid" (blkid_args source)] |} in
  formatAndMount fs ctx source target fsType opts s =
    if existingFormat =? "" then
      formatAndMount_unformatted ctx source target fsType (opts ++ ["defaults"]) s1
    else
      formatAndMount_formatted ctx source target fsType (opts ++ ["defaults"])
        existingFormat s1.
Proof.
  cbv zeta. rewrite formatAndMount_run, getDiskFormat_run.
  now destruct (exec_CombinedOutput _ _ _) as [[out err] w].
Qed.

(** X2: when blkid itself exits with a failure status, [formatAndMount]
    takes the device for unformatted and runs mkfs on it, whatever blkid
    printed: its first two calls are blkid and mkfs.<type>. *)
Theorem formatAndMount_formats_when_probe_fails (fs : FS) (ctx : context_Context)
    (source target fsType : string) (opts : list string) (s : state)
    (out : string) (e : error) (w : World) :
  exec_CombinedOutput "blkid" (blkid_args source) (world s) = ((out, Some e), w) ->
  let ty := if string_dec fsType "" then "ext4" else fsType in
  let args := if string_dec ty "ext4" then ["-F"; source]
              else if string_dec ty "ext3" then ["-F"; source] else [source] in
  firstn 2 (calls (formatAndMount fs ctx source target fsType opts) s) =
    [Exec "blkid" (blkid_args source); Exec ("mkfs." ++ ty) args].
Proof.
  intros Hrun ty args.
  pose proof (formatAndMount_probed fs ctx source target fsType opts s) as Hfam.
  cbv zeta in Hfam. rewrite getDiskFormat_run, Hrun in Hfam. simpl in Hfam.
  pose proof (formatAndMount_unformatted_run ctx source target fsType
                (opts ++ ["defaults"])
                {| world := w; trace := trace s ++ [Exec "blkid" (blkid_args source)] |})
    as Hbranch.
  cbv zeta in Hbranch. fold ty in Hbranch. fold args in Hbranch.
  rewrite Hbranch in Hfam. clear Hbranch. simpl in Hfam.
  destruct (exec_Run _ _ _) as [[e1 |] w1].
  - rewrite (calls_appended _ s
               [Exec "blkid" (blkid_args source); Exec ("mkfs." ++ ty) args]);
      [reflexivity |].
    rewrite Hfam. simpl. now rewrite <- app_assoc.
  - rewrite (calls_appended _ s
               [Exec "blkid" (blkid_args source); Exec ("mkfs." ++ ty) args;
                FsMount source target ty (opts ++ ["defaults"])]);
      [reflexivity |].
    rewrite Hfam. simpl. now rewrite <- app_assoc.
Qed.


(** X4: [formatAndMount] runs a format utility exactly when the probe
    reports no filesystem type, and never more than once. *)
Theorem formatAndMount_formats_iff_unformatted (fs : FS) (ctx : context_Context)
    (source target fsType : string) (opts : list string) (s : state) :
  existsb is_format_call (calls (formatAndMount fs ctx source target fsType opts) s) =
    (fst (fst (getDiskFormat fs ctx source s)) =? "")
  /\ length (filter is_format_call
               (calls (formatAndMount fs ctx source target fsType opts) s)) <= 1.
Proof.
  pose proof (formatAndMount_probed fs ctx source target fsType opts s) as Hfam.
  cbv zeta in Hfam.
  destruct (_ =? "") in Hfam |- *.
  - pose proof (formatAndMount_unformatted_run ctx source target fsType
                  (opts ++ ["defaults"])
                  {| world := snd (exec_CombinedOutput "blkid" (blkid_args source) (world s));
                     trace := trace s ++ [Exec "blkid" (blkid_args source)] |})
      as Hbranch.
    cbv zeta in Hbranch. rewrite Hbranch in Hfam. clear Hbranch. simpl in Hfam.
    destruct (exec_Run _ _ _) as [[e1 |] w1]; calls_of Hfam; simpl;
      rewrite prefix_empty; simpl; (split; [reflexivity | lia]).
  - rewrite formatAndMount_formatted_run in Hfam. cbn [trace world] in Hfam.
    calls_of Hfam. simpl. split; [reflexivity | lia].
Qed.

End FormatAndMountMore.

Lemma formatAndMount_formats_when_probe_fails_witness :
  firstn 2 (calls (formatAndMount scripted_fs tt "/dev/sdb" "/mnt" "" ["ro"])
                  (start probe_fails_with_output)) =
    [Exec "blkid" (blkid_args "/dev/sdb"); Exec "mkfs.ext4" ["-F"; "/dev/sdb"]].
Proof.
  eapply (formatAndMount_formats_when_probe_fails scripted_fs tt "/dev/sdb" "/mnt" ""
            ["ro"] (start probe_fails_with_output)).
  reflexivity.
Defined.


(** ** More on the bind mount *)

Section BindMountMore.
Context `{Host}.

(** X5: [bindMount] returns nil exactly when both calls of [fs.doMount], the
    bind step and the step with the caller's options, return nil.  It makes
    one or two calls, and each of them is [fs.doMount] with command "mount"
    on the given source and target with no filesystem type. *)
Theorem bindMount_succeeds_iff_both_steps (fs : FS) (ctx : context_Context)
    (source target : string) (opts : list string) (s : state) :
  let step1 := fs_doMount ctx "mount" source target "" ["bind"] (world s) in
  let step2 := fs_doMount ctx "mount" source target "" opts (snd step1) in
  (fst (bindMount fs ctx source target opts s) = None <->
     fst step1 = None /\ fst step2 = None)
  /\ 1 <= length (calls (bindMount fs ctx source target opts) s) <= 2
  /\ forallb (is_plain_doMount source target)
       (calls (bindMount fs ctx source target opts) s) = true.
Proof.
  intros step1 step2.
  assert (Hrun : bindMount fs ctx source target opts s =
    match fst step1 with
    | Some e =>
        (Some e, {| world := snd step1;
                    trace := (trace s ++ []) ++ [DoMount "mount" source target "" ["bind"]] |})
    | None =>
        (fst step2, {| world := snd step2;
                       trace := (trace s ++ [DoMount "mount" source target "" ["bind"]])
                                ++ [DoMount "mount" source target "" opts] |})
    end).
  { unfold bindMount, bind, invoke, ret. subst step2 step1.
    destruct (fs_doMount ctx "mount" source target "" ["bind"] (world s)) as [[e |] w1];
      simpl.
    - now rewrite app_nil_r.
    - now destruct (fs_doMount ctx "mount" source target "" opts w1). }
  destruct (fst step1) as [e |].
  - calls_of Hrun. rewrite Hrun. simpl. rewrite !String.eqb_refl. simpl.
    repeat split; try lia; try discriminate. now intros [? _].
  - calls_of Hrun. rewrite Hrun. simpl. rewrite !String.eqb_refl. simpl.
    repeat split; try lia; tauto.
Qed.

End BindMountMore.

(** ** More on the mount-table snapshot *)

Lemma tally_app (a b : list call) (o1 f1 o2 f2 : nat) :
  tally a o1 f1 -> tally b o2 f2 -> tally (a ++ b) (o1 + o2) (f1 + f2).
Proof.
  unfold tally. intros (Ho1 & Hf1 & Hc1 & Ht1) (Ho2 & Hf2 & Hc2 & Ht2).
  rewrite !filter_app, !length_app, forallb_app, Ht1, Ht2.
  repeat split; lia.
Qed.

Lemma tally_nil : tally [] 0 0.
Proof. unfold tally. simpl. repeat split; lia. Qed.

Lemma tally_failed_open : tally [OsOpen procMountsPath] 1 0.
Proof. unfold tally. simpl. repeat split; lia. Qed.

Lemma tally_read_calls (info : bool) :
  tally (read_calls info) 1 (if info then 1 else 0).
Proof. unfold tally. destruct info; simpl; repeat split; lia. Qed.

Lemma tally_weaken (cs : list call) (o f o' f' : nat) :
  tally cs o f -> o <= o' -> f <= f' -> tally cs o' f'.
Proof. unfold tally. intros (Ho & Hf & Hc & Ht) Hle1 Hle2. repeat split; auto; lia. Qed.

Lemma opens_of_reads (k : nat) :
  length (filter is_open (concat (repeat (read_calls true) k))) = k.
Proof. induction k as [| k IH]; simpl; [reflexivity | now rewrite IH]. Qed.

Lemma full_reads_of_reads (k : nat) :
  length (filter is_full_read (concat (repeat (read_calls true) k))) = k.
Proof. induction k as [| k IH]; simpl; [reflexivity | now rewrite IH]. Qed.

Section SnapshotMore.
Context `{Host}.

(** The calls of one read of the mount table. *)
Lemma readProcMounts_block (fs : FS) (ctx : context_Context) (info : bool)
    (s : state) :
  exists blk,
    trace (snd (readProcMounts fs ctx procMountsPath info s)) = trace s ++ blk
    /\ ((blk = [OsOpen procMountsPath]
         /\ snd (fst (readProcMounts fs ctx procMountsPath info s)) <> None)
        \/ blk = read_calls info).
Proof.
  rewrite readProcMounts_run.
  destruct (os_Open procMountsPath (world s)) as [[file | e] w].
  - destruct (ReadProcMountsFrom _ _ _ _ _ _) as [res w1].
    exists (read_calls info). split; [reflexivity | now right].
  - exists [OsOpen procMountsPath]. split; [reflexivity | left].
    split; [reflexivity | discriminate].
Qed.

Lemma readProcMounts_tally (fs : FS) (ctx : context_Context) (info : bool)
    (s : state) :
  exists blk,
    trace (snd (readProcMounts fs ctx procMountsPath info s)) = trace s ++ blk
    /\ tally blk 1 (if info then 1 else 0).
Proof.
  destruct (readProcMounts_block fs ctx info s) as (blk & Htr & [[-> _] | ->]);
    eexists; (split; [exact Htr |]).
  - apply (tally_weaken _ 1 0); [apply tally_failed_open | lia | lia].
  - apply tally_read_calls.
Qed.

(** X6: [readProcMounts] closes the file it opened exactly once, after the
    parser has returned and whether or not the parser returned an error,
    and returns what the parser returned; the parser is asked to skip the
    entries exactly when [info] is false.  When the open fails, nothing is
    read or closed and the result is nil entries, fingerprint 0 and the
    error of the open. *)
Theorem readProcMounts_open_read_close (fs : FS) (ctx : context_Context)
    (path : string) (info : bool) (s : state) :
  match fst (os_Open path (world s)) with
  | inr e =>
      fst (readProcMounts fs ctx path info s) = ([], 0%Z, Some e)
      /\ calls (readProcMounts fs ctx path info) s = [OsOpen path]
  | inl file =>
      fst (readProcMounts fs ctx path info s) =
        fst (ReadProcMountsFrom ctx file (negb info) ProcMountsFields (ScanEntry fs)
               (snd (os_Open path (world s))))
      /\ calls (readProcMounts fs ctx path info) s =
           [OsOpen path; ReadFrom (negb info); FileClose]
  end.
Proof.
  pose proof (readProcMounts_run fs ctx path info s) as Hrun.
  destruct (os_Open path (world s)) as [[file | e] w]; simpl.
  - destruct (ReadProcMountsFrom _ _ _ _ _ _) as [res w1].
    split; [now rewrite Hrun |].
    apply calls_appended. now rewrite Hrun.
  - split; [now rewrite Hrun |].
    apply calls_appended. now rewrite Hrun.
Qed.

Lemma getMounts_loop_tally (fs : FS) (ctx : context_Context) (n : nat) :
  forall (prev : Z) (s : state),
    exists new,
      trace (snd (getMounts_loop n fs ctx prev s)) = trace s ++ new
      /\ tally new n n.
Proof.
  induction n as [| n IH]; intros prev s.
  - exists []. split; [simpl; now rewrite app_nil_r | apply tally_nil].
  - cbn [getMounts_loop]. unfold bind.
    destruct (readProcMounts_tally fs ctx true s) as (blk & Htr & Hblk).
    destruct (readProcMounts fs ctx procMountsPath true s) as [[[mps h] err] s1].
    simpl in Htr.
    assert (Hstop : tally blk (S n) (S n)) by (apply (tally_weaken _ 1 1); auto; lia).
    destruct err as [e |]; [exists blk; split; [exact Htr | exact Hstop] |].
    destruct (prev =? h)%Z; [exists blk; split; [exact Htr | exact Hstop] |].
    destruct (IH h s1) as (new & Htr' & Hnew).
    exists (blk ++ new). split.
    + now rewrite Htr', Htr, app_assoc.
    + apply (tally_app blk new 1 1 n n); assumption.
Qed.

(** X7: in every run, whatever the host answers, [getMounts] opens the mount
    table at most [1 + procMountsRetries] = 4 times and reads it in full at
    most [procMountsRetries] = 3 times; it closes as many files as it has
    read; and it calls nothing but opens of /proc/self/mountinfo, reads and
    closes. *)
Theorem getMounts_bounded (fs : FS) (ctx : context_Context) (s : state) :
  length (filter is_open (calls (getMounts fs ctx) s)) <= 4
  /\ length (filter is_full_read (calls (getMounts fs ctx) s)) <= 3
  /\ length (filter is_close (calls (getMounts fs ctx) s)) =
       length (filter is_read (calls (getMounts fs ctx) s))
  /\ forallb is_table_call (calls (getMounts fs ctx) s) = true.
Proof.
  change (tally (calls (getMounts fs ctx) s) 4 3).
  assert (Hnew : exists new,
            trace (snd (getMounts fs ctx s)) = trace s ++ new /\ tally new 4 3).
  { unfold getMounts, bind.
    destruct (readProcMounts_tally fs ctx false s) as (blk & Htr & Hblk).
    destruct (readProcMounts fs ctx procMountsPath false s) as [[[m0 h0] err] s1].
    simpl in Htr.
    destruct err as [e |].
    - exists blk. split; [exact Htr |]. apply (tally_weaken _ 1 0); auto; lia.
    - destruct (getMounts_loop_tally fs ctx (Z.to_nat procMountsRetries) h0 s1)
        as (new & Htr' & Hnew).
      exists (blk ++ new). split.
      + now rewrite Htr', Htr, app_assoc.
      + apply (tally_app blk new 1 0 3 3); assumption. }
  destruct Hnew as (new & Htr & Hnew).
  now rewrite (calls_appended _ _ _ Htr).
Qed.

Lemma getMounts_loop_error_nil (fs : FS) (ctx : context_Context) (n : nat) :
  forall (prev : Z) (s : state),
    snd (fst (getMounts_loop n fs ctx prev s)) <> None ->
    fst (fst (getMounts_loop n fs ctx prev s)) = [].
Proof.
  induction n as [| n IH]; intros prev s; [reflexivity |].
  cbn [getMounts_loop]. unfold bind.
  destruct (readProcMounts fs ctx procMountsPath true s) as [[[mps h] err] s1].
  destruct err as [e |]; [reflexivity |].
  destruct (prev =? h)%Z; [simpl; congruence | apply IH].
Qed.

(** X8: whenever [getMounts] returns an error, whether from a read or for
    lack of a consistent snapshot, the entries it returns are nil: entries
    of a read that was not confirmed are never handed to the caller. *)
Theorem getMounts_error_no_entries (fs : FS) (ctx : context_Context) (s : state) :
  snd (fst (getMounts fs ctx s)) <> None ->
  fst (fst (getMounts fs ctx s)) = [].
Proof.
  unfold getMounts, bind.
  destruct (readProcMounts fs ctx procMountsPath false s) as [[[m0 h0] err] s1].
  destruct err as [e |]; [reflexivity | apply getMounts_loop_error_nil].
Qed.

End SnapshotMore.

Section SnapshotRuns.
Context `{Host}.

Lemma getMounts_loop_success (fs : FS) (ctx : context_Context) (n : nat) :
  forall (prev : Z) (s s' sa : state) (info : bool) (m mps : list Info),
    readProcMounts fs ctx procMountsPath info sa = ((m, prev, None), s) ->
    getMounts_loop n fs ctx prev s = ((mps, None), s') ->
    exists (info' : bool) (sa' sb : state) (m' : list Info) (h : Z),
      readProcMounts fs ctx procMountsPath info' sa' = ((m', h, None), sb)
      /\ readProcMounts fs ctx procMountsPath true sb = ((mps, h, None), s').
Proof.
  induction n as [| n IH]; intros prev s s' sa info m mps Hprev Hloop.
  - discriminate Hloop.
  - cbn [getMounts_loop] in Hloop. unfold bind in Hloop.
    destruct (readProcMounts fs ctx procMountsPath true s)
      as [[[mps2 h2] err] s2] eqn:Hread.
    destruct err as [e |]; [discriminate Hloop |].
    destruct (prev =? h2)%Z eqn:Heq.
    + apply Z.eqb_eq in Heq. subst h2.
      injection Hloop as -> ->.
      exists info, sa, s, m, prev. split; assumption.
    + exact (IH h2 s2 s' s true mps2 mps Hread Hloop).
Qed.

(** X9: when [getMounts] returns a nil error, the entries it returns are
    those of a full read whose fingerprint equals the fingerprint of the
    read made just before it (the second read starts in the state in which
    the first one ended), and the state it ends in is the state after that
    full read. *)
Theorem getMounts_success_confirmed (fs : FS) (ctx : context_Context)
    (s s' : state) (mps : list Info) :
  getMounts fs ctx s = ((mps, None), s') ->
  exists (info : bool) (sa sb : state) (m : list Info) (h : Z),
    readProcMounts fs ctx procMountsPath info sa = ((m, h, None), sb)
    /\ readProcMounts fs ctx procMountsPath true sb = ((mps, h, None), s').
Proof.
  unfold getMounts, bind.
  destruct (readProcMounts fs ctx procMountsPath false s)
    as [[[m0 h0] err] s1] eqn:Hfirst.
  destruct err as [e |]; [discriminate |].
  apply (getMounts_loop_success fs ctx _ h0 s1 s' s false m0 mps Hfirst).
Qed.

(** After [k] changing reads the loop of [getMounts] goes on with [k]
    iterations less. *)
Lemma getMounts_loop_after_changing (fs : FS) (ctx : context_Context)
    (P : Z -> state -> Prop) (n k : nat) :
  forall (prev : Z) (s : state),
    after_changing k fs ctx prev s P ->
    exists (h : Z) (s2 : state),
      P h s2
      /\ getMounts_loop (k + n) fs ctx prev s = getMounts_loop n fs ctx h s2
      /\ trace s2 = trace s ++ concat (repeat (read_calls true) k).
Proof.
  induction k as [| k IH]; intros prev s Hch.
  - exists prev, s. simpl. now rewrite app_nil_r.
  - cbn [after_changing] in Hch. cbn [Nat.add getMounts_loop]. unfold bind.
    destruct (readProcMounts fs ctx procMountsPath true s)
      as [[[mps h] err] s1] eqn:Hread.
    destruct Hch as (-> & Hne & Hch).
    apply Z.eqb_neq in Hne. rewrite Z.eqb_sym in Hne. rewrite Hne.
    destruct (IH h s1 Hch) as (h2 & s2 & HP & Hloop & Htr).
    exists h2, s2. split; [exact HP |]. split; [exact Hloop |].
    rewrite Htr, (readProcMounts_ok_trace _ _ _ _ _ _ _ Hread).
    cbn [repeat concat]. now rewrite <- app_assoc.
Qed.

(** X10: the first read succeeds, the next [k] reads ([k < 3]) succeed with
    changing fingerprints, and the read after them fails with [e], at the
    open or in the parser.  Then [getMounts] returns [e] with nil entries
    and stops: it has opened the mount table [k + 2] times and does not use
    the iterations that are left. *)
Theorem getMounts_read_error_aborts (fs : FS) (ctx : context_Context)
    (s s1 : state) (m0 : list Info) (h0 : Z) (k : nat) (e : error) :
  readProcMounts fs ctx procMountsPath false s = ((m0, h0, None), s1) ->
  k < 3 ->
  after_changing k fs ctx h0 s1
    (fun _ s2 => snd (fst (readProcMounts fs ctx procMountsPath true s2)) = Some e) ->
  fst (getMounts fs ctx s) = ([], Some e)
  /\ length (filter is_open (calls (getMounts fs ctx) s)) = k + 2.
Proof.
  intros Hfirst Hk Hch.
  destruct (getMounts_loop_after_changing fs ctx _ (S (2 - k)) k h0 s1 Hch)
    as (h & s2 & Herr & Hloop & Htr).
  assert (Hrun : getMounts fs ctx s = getMounts_loop (S (2 - k)) fs ctx h s2).
  { unfold getMounts, bind. rewrite Hfirst.
    change (Z.to_nat procMountsRetries) with 3.
    replace 3 with (k + S (2 - k)) by lia. exact Hloop. }
  cbn [getMounts_loop] in Hrun. unfold bind in Hrun.
  destruct (readProcMounts_block fs ctx true s2) as (blk & Hblk & Hshape).
  destruct (readProcMounts fs ctx procMountsPath true s2) as [[[mps h2] err] s3].
  simpl in Herr, Hblk, Hshape. subst err.
  split; [now rewrite Hrun |].
  assert (Hcalls : calls (getMounts fs ctx) s =
            read_calls false ++ concat (repeat (read_calls true) k) ++ blk).
  { apply calls_appended. rewrite Hrun. simpl.
    rewrite Hblk, Htr, (readProcMounts_ok_trace _ _ _ _ _ _ _ Hfirst).
    now rewrite <- !app_assoc. }
  rewrite Hcalls, !filter_app, !length_app, opens_of_reads.
  destruct Hshape as [[-> _] | ->]; simpl; lia.
Qed.

(** X11: the first read succeeds, the next [k] reads ([k < 3]) succeed with
    changing fingerprints, and the read after them succeeds with the
    fingerprint of the read before it.  Then [getMounts] returns the entries
    of that last read with a nil error, in iteration [k + 1] of its loop. *)
Theorem getMounts_settles (fs : FS) (ctx : context_Context)
    (s s1 : state) (m0 mps : list Info) (h0 : Z) (k : nat) :
  readProcMounts fs ctx procMountsPath false s = ((m0, h0, None), s1) ->
  k < 3 ->
  after_changing k fs ctx h0 s1
    (fun h s2 => fst (readProcMounts fs ctx procMountsPath true s2) = (mps, h, None)) ->
  fst (getMounts fs ctx s) = (mps, None)
  /\ length (filter is_full_read (calls (getMounts fs ctx) s)) = k + 1.
Proof.
  intros Hfirst Hk Hch.
  destruct (getMounts_loop_after_changing fs ctx _ (S (2 - k)) k h0 s1 Hch)
    as (h & s2 & Hsame & Hloop & Htr).
  assert (Hrun : getMounts fs ctx s = getMounts_loop (S (2 - k)) fs ctx h s2).
  { unfold getMounts, bind. rewrite Hfirst.
    change (Z.to_nat procMountsRetries) with 3.
    replace 3 with (k + S (2 - k)) by lia. exact Hloop. }
  cbn [getMounts_loop] in Hrun. unfold bind in Hrun.
  destruct (readProcMounts fs ctx procMountsPath true s2)
    as [[[mps2 h2] err] s3] eqn:Hread.
  simpl in Hsame. injection Hsame as -> -> ->.
  rewrite Z.eqb_refl in Hrun.
  split; [now rewrite Hrun |].
  assert (Hcalls : calls (getMounts fs ctx) s =
            read_calls false ++ concat (repeat (read_calls true) k) ++ read_calls true).
  { apply calls_appended. rewrite Hrun. simpl.
    rewrite (readProcMounts_ok_trace _ _ _ _ _ _ _ Hread), Htr,
      (readProcMounts_ok_trace _ _ _ _ _ _ _ Hfirst).
    now rewrite <- !app_assoc. }
  rewrite Hcalls, !filter_app, !length_app, full_reads_of_reads. simpl. lia.
Qed.

(** X12: when the mount table cannot be opened at the first read,
    [getMounts] returns the error of the open with nil entries; its only
    call is that open: nothing is read or closed and no retry is made. *)
Theorem getMounts_first_open_fails (fs : FS) (ctx : context_Context)
    (s : state) (e : error) (w : World) :
  os_Open procMountsPath (world s) = (inr e, w) ->
  getMounts fs ctx s =
    (([], Some e), {| world := w; trace := trace s ++ [OsOpen procMountsPath] |})
  /\ calls (getMounts fs ctx) s = [OsOpen procMountsPath].
Proof.
  intros Hopen.
  assert (Hrun : getMounts fs ctx s =
    (([], Some e), {| world := w; trace := trace s ++ [OsOpen procMountsPath] |})).
  { unfold getMounts, bind. now rewrite readProcMounts_run, Hopen. }
  split; [exact Hrun |]. apply calls_appended. now rewrite Hrun.
Qed.

End SnapshotRuns.

Lemma getMounts_error_no_entries_witness :
  fst (fst (getMounts scripted_fs tt (start table_changes))) = [].
Proof.
  apply (getMounts_error_no_entries scripted_fs tt (start table_changes)).
  vm_compute. discriminate.
Defined.

Lemma getMounts_success_confirmed_witness :
  exists (info : bool) (sa sb : state) (m : list Info) (h : Z),
    readProcMounts scripted_fs tt procMountsPath info sa = ((m, h, None), sb)
    /\ readProcMounts scripted_fs tt procMountsPath true sb =
         ((["a"; "b"], h, None), snd (getMounts scripted_fs tt (start table_stable))).
Proof.
  apply (getMounts_success_confirmed scripted_fs tt (start table_stable)).
  reflexivity.
Defined.

Lemma getMounts_read_error_aborts_witness :
  fst (getMounts scripted_fs tt (start table_read_error)) =
    ([], Some (NewError "unexpected EOF")).
Proof.
  eapply proj1.
  eapply (getMounts_read_error_aborts scripted_fs tt (start table_read_error) _ _ _ 1).
  - reflexivity.
  - lia.
  - vm_compute. repeat split; discriminate.
Defined.

Lemma getMounts_settles_witness :
  fst (getMounts scripted_fs tt (start table_settles)) = (["a"; "b"], None).
Proof.
  eapply proj1.
  eapply (getMounts_settles scripted_fs tt (start table_settles) _ _ _ _ 1).
  - reflexivity.
  - lia.
  - vm_compute. repeat split; discriminate.
Defined.

Lemma getMounts_first_open_fails_witness :
  calls (@getMounts no_table no_table_fs tt) no_table_start = [OsOpen procMountsPath].
Proof.
  eapply proj2.
  eapply (@getMounts_first_open_fails no_table no_table_fs tt no_table_start).
  reflexivity.
Defined.
